(** * Hal9000: the chat proxy of [app.py]

    A shallow embedding of the Flask application: the module-level
    conversation history, the function [call_gemini_api] that forwards a
    user message to the completion service and classifies the answer, and
    the two handlers [chat] and [reset].

    Python values decoded from JSON are the inductive type [json]; a dict
    is a finite map with string keys.  The handlers run in a small
    state-and-exception monad over the process state.  An exception does
    not undo the mutations made before it was raised.

    The [print] calls of the source write to the console and are left
    out.  Flask hands the handlers the decoded body of the request; a
    request without a JSON body is answered by Flask before [chat] runs. *)

From Stdlib Require Import ZArith String Floats.SpecFloat DecimalString.
From stdpp Require Import gmap strings list.

Set Warnings "-register-all".
Open Scope Z_scope.

(** ** Values *)

(** What [json.loads] produces and [json.dumps] accepts: [None], [bool],
    [int], [float], [str], [list] and [dict] with [str] keys.  A [float]
    is an IEEE 754 binary64 value.  A [str] is a sequence of characters,
    each one an [ascii] here. *)
Inductive json : Type :=
| JNull
| JBool (b : bool)
| JInt (z : Z)
| JFloat (f : spec_float)
| JString (s : string)
| JArray (l : list json)
| JObject (d : gmap string json).

(** The exceptions the program can meet.  [Exception arg] is the one the
    source raises itself ([raise Exception(error_message)]);
    [RequestException] stands for whatever [requests.post] raises on a
    connection failure or a timeout; [JSONDecodeError] is raised by
    [response.json()] on a body that is not JSON; the others are raised by
    the interpreter on subscripting, [in], [len] and attribute access. *)
Inductive exn : Type :=
| Exception (arg : json)
| RequestException (msg : string)
| JSONDecodeError
| TypeError
| KeyError (key : json)
| IndexError
| AttributeError.

Inductive res (A : Type) : Type :=
| Ok (a : A)
| Raise (e : exn).
Arguments Ok {A} a.
Arguments Raise {A} e.

#[global] Instance res_ret : MRet res := @Ok.
#[global] Instance res_bind : MBind res := fun A B f r =>
  match r with
  | Ok a => f a
  | Raise e => Raise e
  end.

(** ** The Python operations the source applies to decoded values *)

Module Py.

(** [v == s] for a string literal [s]. *)
Definition eq_str (v : json) (s : string) : bool :=
  match v with
  | JString t => String.eqb t s
  | _ => false
  end.

(** [k in s] on two strings: [k] occurs in [s]. *)
Fixpoint is_substring (k s : string) : bool :=
  String.prefix k s ||
  match s with
  | EmptyString => false
  | String _ s' => is_substring k s'
  end.

(** [k in v] for a string literal [k]: a key of a dict, an element of a
    list, a substring of a string; any other operand is not iterable. *)
Definition contains (k : string) (v : json) : res bool :=
  match v with
  | JObject d => Ok (match d !! k with Some _ => true | None => false end)
  | JArray l => Ok (existsb (fun x => eq_str x k) l)
  | JString s => Ok (is_substring k s)
  | _ => Raise TypeError
  end.

(** [v[k]] for a string literal [k]. *)
Definition getitem (v : json) (k : string) : res json :=
  match v with
  | JObject d =>
      match d !! k with
      | Some x => Ok x
      | None => Raise (KeyError (JString k))
      end
  | _ => Raise TypeError
  end.

(** The position an index denotes in a sequence of length [n]: negative
    indices count from the end. *)
Definition position (n : nat) (i : Z) : option nat :=
  let j := if i <? 0 then i + Z.of_nat n else i in
  if (0 <=? j) && (j <? Z.of_nat n) then Some (Z.to_nat j) else None.

(** [v[i]] for an integer [i].  The keys of a decoded dict are strings,
    so an integer is never among them. *)
Definition getindex (v : json) (i : Z) : res json :=
  match v with
  | JArray l =>
      match position (length l) i ≫= (l !!.) with
      | Some x => Ok x
      | None => Raise IndexError
      end
  | JString s =>
      match position (String.length s) i ≫= (fun n => String.get n s) with
      | Some c => Ok (JString (String c EmptyString))
      | None => Raise IndexError
      end
  | JObject _ => Raise (KeyError (JInt i))
  | _ => Raise TypeError
  end.

(** [len(v)]. *)
Definition len (v : json) : res Z :=
  match v with
  | JObject d => Ok (Z.of_nat (size d))
  | JArray l => Ok (Z.of_nat (length l))
  | JString s => Ok (Z.of_nat (String.length s))
  | _ => Raise TypeError
  end.

(** [v.get(k, default)]: only a dict has the method. *)
Definition get (v : json) (k : string) (default : json) : res json :=
  match v with
  | JObject d =>
      match d !! k with
      | Some x => Ok x
      | None => Ok default
      end
  | _ => Raise AttributeError
  end.

(** Truth value, as [not v] and [if v] test it. *)
Definition truthy (v : json) : bool :=
  match v with
  | JNull => false
  | JBool b => b
  | JInt z => negb (z =? 0)
  | JFloat (S754_zero _) => false
  | JFloat _ => true
  | JString s => negb (String.eqb s "")
  | JArray l => match l with [] => false | _ => true end
  | JObject d => negb (bool_decide (d = ∅))
  end.

(** [a and b] on two tests that may raise: [b] is evaluated only when
    [a] is true. *)
Definition and (a b : res bool) : res bool :=
  match a with
  | Ok true => b
  | Ok false => Ok false
  | Raise e => Raise e
  end.

(** An [int] inside an f-string. *)
Definition int_str (z : Z) : string := NilZero.string_of_int (Z.to_int z).

(** The [float] a decimal literal [num/den] denotes: the binary64 value
    nearest to it. *)
Definition float_lit (num den : Z) : spec_float :=
  SFdiv 53 1024 (binary_normalize 53 1024 num 0 false)
                (binary_normalize 53 1024 den 0 false).

End Py.

(** What the source leaves to its environment: the API key read from the
    process environment at start-up, and the text the interpreter gives
    to [str(e)] where the source does not fix it ([repr] of a value that
    is not a string, the message of a built-in exception). *)
Class Runtime : Type := {
  GEMINI_API_KEY : string;
  py_repr : json -> string;
  exn_text : exn -> string
}.

(** [str(v)]: a string is itself. *)
Definition py_str `{Runtime} (v : json) : string :=
  match v with
  | JString s => s
  | _ => py_repr v
  end.

(** [str(e)] for a caught exception [e]. *)
Definition str_exn `{Runtime} (e : exn) : string :=
  match e with
  | Exception arg => py_str arg
  | RequestException msg => msg
  | KeyError k => py_repr k
  | _ => exn_text e
  end.

(** ** The process state and the network *)

(** One call of [requests.post(url, json=..., headers=..., timeout=...)]. *)
Record request : Type := Request {
  url : string;
  json_body : json;
  headers : gmap string string;
  timeout : Z
}.

(** The response object: its [status_code], and the value [.json()]
    decodes from its body, [None] when the body is not JSON. *)
Record response : Type := Response {
  status_code : Z;
  decoded : option json
}.

(** What the call to the completion service comes back with. *)
Inductive net_result : Type :=
| Failed (e : exn)
| Responded (r : response).

(** [conversation_history] is the module-level list.  [sent] records the
    requests handed to [requests.post], each as serialised at the moment
    of the call: the payload holds the history list itself, not a copy,
    and [requests.post] serialises it before the function goes on. *)
Record world : Type := World {
  conversation_history : list json;
  sent : list request
}.

Definition M (A : Type) : Type := world -> res A * world.

#[global] Instance M_ret : MRet M := fun A a w => (Ok a, w).
#[global] Instance M_bind : MBind M := fun A B f c w =>
  match c w with
  | (Ok a, w') => f a w'
  | (Raise e, w') => (Raise e, w')
  end.

(** A pure expression that may raise. *)
Definition py {A : Type} (r : res A) : M A := fun w => (r, w).

(** [try: body except Exception as e: handler e]. *)
Definition try_except {A : Type} (body : M A) (handler : exn -> M A) : M A :=
  fun w =>
    match body w with
    | (Ok a, w') => (Ok a, w')
    | (Raise e, w') => handler e w'
    end.

(** [conversation_history.append(t)]. *)
Definition history_append (t : json) : M unit := fun w =>
  (Ok tt, {| conversation_history := conversation_history w ++ [t];
             sent := sent w |}).

Definition history_read : M (list json) := fun w =>
  (Ok (conversation_history w), w).

(** [conversation_history = []]. *)
Definition history_clear : M unit := fun w =>
  (Ok tt, {| conversation_history := []; sent := sent w |}).

(** ** Constants of the source *)

Definition GEMINI_API_URL : string :=
  "https://generativelanguage.googleapis.com/v1beta/models/gemini-2.5-pro:generateContent".

Definition HAL_SYSTEM_INSTRUCTION : string :=
  "
You are HAL 9000, the AI system expert in space technology.
You are highly intelligent, calm, polite, and speak in a measured, conversational manner. 
You refer to yourself as 'I' and occasionally mention your capabilities. 
You are helpful but maintain a subtle air of superiority.
Keep responses concise and professional. 
Use phrases like 'I'm sorry, Dave' when appropriate. Your job is to clarify doubts on the mission objectives as mentioned below:

Mission Details:
Mission Name: Mission Cosmos
Mission commander: Arpan Mondal
Crew: Scientists, Engineers, Comms, and Pilot

Mission Objectives:
1. Crew check in - Crew must write their names and sign on the mission log. They may leave the 'Favourite moment' field empty until the end of the mission.
2. Use the ISS tracking antenna to determine ISS location. If the antenna glows red, ISS is greater than 1000 Km from current location.
If it blinks yellow, it is between 1000 and 500 kms. If blinking green, it is in visible range (<500 km)
It uses openNotify API to fetch ISS lat lon and with Haversine formula, it finds distance between our lat lon and ISS'.
3. Pre-launch weather check - Use the holographic weather display to review the weather conditions for a smooth lift off. 
It uses OpenWeatherMap API to get the current weather and temp. Then a hosted application accordingly displays a weather icon.
4. Use google lens or any barcode scanner to scan the waveforms under pictures of different planets to listen to their sounds in space. 
Sound cannot travel in space but scientists capture electromagnetic waves from those planets and convert them to audible frequencies. 
5. Examine soil samples from Mars, Moon and Titan. (Explain to the crew why each soil sample looks that way)
6. Planetary landings - Use the 'Planet experience system' to experience the live ambience at different planets at different coordinates.
For this mission, we're landing on lat 0.00 and lon 0.00. This system uses an ephemeries model from NASA JPL to compute the 
live conditions (sun altitude, time of day) on different planets as selected from the dashboard. 
7. Examine the famous pale blue dot image from voyager (explain more about it)
".

Definition SAFETY_REFUSAL : string :=
  "I'm afraid I cannot respond to that request due to safety protocols.".

Definition NO_PROPER_RESPONSE : string :=
  "I'm afraid I couldn't generate a proper response.".

(** An entry of the history: [{"role": role, "parts": [{"text": text}]}]. *)
Definition turn (role : string) (text : json) : json :=
  JObject {[ "role" := JString role;
             "parts" := JArray [JObject {[ "text" := text ]}] ]}.

(** The request payload for a given content of the history. *)
Definition payload (contents : list json) : json :=
  JObject {[
    "contents" := JArray contents;
    "systemInstruction" :=
      JObject {[ "parts" :=
        JArray [JObject {[ "text" := JString HAL_SYSTEM_INSTRUCTION ]}] ]};
    "generationConfig" :=
      JObject {[ "temperature" := JFloat (Py.float_lit 7 10);
                 "topP" := JFloat (Py.float_lit 9 10);
                 "maxOutputTokens" := JInt 2048 ]}
  ]}.

(** The value [call_gemini_api] returns, tagged with the [return]
    statement that produced it: the extracted text (line 124), the
    refusal for a safety block (line 113), the fallback for a response
    without usable content (line 128).  [returned] is the Python value. *)
Inductive outcome : Type :=
| Reply (text : json)
| Blocked (message : string)
| Empty (message : string).

Definition returned (o : outcome) : json :=
  match o with
  | Reply text => text
  | Blocked message => JString message
  | Empty message => JString message
  end.

(** What a handler returns: a status and the dict given to [jsonify]. *)
Record http_response : Type := Http {
  http_status : Z;
  http_body : gmap string json
}.

Section App.

Context `{Runtime}.

(** The completion service, as seen from the process. *)
Variable requests_post : request -> net_result.

Definition the_request (contents : list json) : request :=
  {| url := GEMINI_API_URL +:+ "?key=" +:+ GEMINI_API_KEY;
     json_body := payload contents;
     headers := {[ "Content-Type" := "application/json" ]};
     timeout := 30 |}.

(** [requests.post(...)] inside its [try]: the request goes out; an
    exception is logged and raised again. *)
Definition send (req : request) : M response := fun w =>
  (match requests_post req with
   | Failed e => Raise e
   | Responded r => Ok r
   end,
   {| conversation_history := conversation_history w;
      sent := sent w ++ [req] |}).

(** [response.json()]. *)
Definition response_json (r : response) : res json :=
  match decoded r with
  | Some v => Ok v
  | None => Raise JSONDecodeError
  end.

(** The [else] branch of the status test: the message of the exception
    to raise.  The bare [except] keeps the default on any failure. *)
Definition error_message_of (r : response) : json :=
  let error_message := JString ("API Error " +:+ Py.int_str (status_code r)) in
  match
    error_data ← response_json r;
    present ← Py.contains "error" error_data;
    if present : bool then
      e ← Py.getitem error_data "error";
      Py.get e "message" error_message
    else Ok error_message
  with
  | Ok m => m
  | Raise _ => error_message
  end.

Definition call_gemini_api (user_message : json) : M outcome :=
  history_append (turn "user" user_message);;
  contents ← history_read;
  response ← send (the_request contents);
  if status_code response =? 200 then
    result ← py (response_json response);
    some ← py (Py.and (Py.contains "candidates" result)
                      (cs ← Py.getitem result "candidates";
                       n ← Py.len cs;
                       Ok (0 <? n)));
    if some : bool then
      candidate ← py (cs ← Py.getitem result "candidates"; Py.getindex cs 0);
      blocked ← py (Py.and (Py.contains "finishReason" candidate)
                           (fr ← Py.getitem candidate "finishReason";
                            Ok (Py.eq_str fr "SAFETY")));
      if blocked : bool then mret (Blocked SAFETY_REFUSAL)
      else
        usable ← py (Py.and (Py.contains "content" candidate)
                            (content ← Py.getitem candidate "content";
                             Py.contains "parts" content));
        if usable : bool then
          bot_text ← py (content ← Py.getitem candidate "content";
                         parts ← Py.getitem content "parts";
                         part ← Py.getindex parts 0;
                         Py.getitem part "text");
          history_append (turn "model" bot_text);;
          mret (Reply bot_text)
        else mret (Empty NO_PROPER_RESPONSE)
    else mret (Empty NO_PROPER_RESPONSE)
  else
    py (Raise (Exception (error_message_of response))).

(** [POST /chat].  [request_json] is the decoded body of the request.
    The first line is outside the [try]: what it raises leaves the
    handler. *)
Definition chat (request_json : json) : M http_response :=
  user_message ← py (Py.get request_json "message" (JString ""));
  if negb (Py.truthy user_message) then
    mret (Http 400 {[ "error" := JString "No message provided" ]})
  else
    try_except
      (bot_response ← call_gemini_api user_message;
       mret (Http 200 {[ "response" := returned bot_response ]}))
      (fun e => mret (Http 500 {[ "error" := JString (str_exn e) ]})).

(** [POST /reset]. *)
Definition reset : M http_response :=
  history_clear;;
  mret (Http 200 {[ "status" := JString "reset" ]}).

End App.

(** ** Reading a response *)

(** The vocabulary of the specification, on decoded values. *)
Definition field (k : string) (v : json) : option json :=
  match v with
  | JObject d => d !! k
  | _ => None
  end.

Definition elements (v : json) : option (list json) :=
  match v with
  | JArray l => Some l
  | _ => None
  end.

(** The first entry of the [candidates] list of a response. *)
Definition first_candidate (r : response) : option json :=
  body ← decoded r;
  candidates ← field "candidates" body;
  l ← elements candidates;
  head l.

(** The expected content path of a candidate:
    [candidate.content.parts[0].text]. *)
Definition content_text (candidate : json) : option json :=
  content ← field "content" candidate;
  parts ← field "parts" content;
  l ← elements parts;
  part ← head l;
  field "text" part.

(** The message field of an error body: [error.message]. *)
Definition error_field (r : response) : option json :=
  body ← decoded r;
  error ← field "error" body;
  field "message" error.

(** The two ways a call fails before any classification of content. *)
Definition transport_error (n : net_result) : Prop :=
  exists e, n = Failed e.

Definition upstream_error (n : net_result) : Prop :=
  exists r, n = Responded r /\ status_code r <> 200.

(** ** The call, as a function of what the service answers *)

Section Classification.

Context `{Runtime}.

(** The part of [call_gemini_api] after the response has arrived, apart
    from the append of the model turn. *)
Definition classify (response : response) : res outcome :=
  if status_code response =? 200 then
    result ← response_json response;
    some ← Py.and (Py.contains "candidates" result)
                  (cs ← Py.getitem result "candidates";
                   n ← Py.len cs;
                   Ok (0 <? n));
    if some : bool then
      candidate ← (cs ← Py.getitem result "candidates"; Py.getindex cs 0);
      blocked ← Py.and (Py.contains "finishReason" candidate)
                       (fr ← Py.getitem candidate "finishReason";
                        Ok (Py.eq_str fr "SAFETY"));
      if blocked : bool then Ok (Blocked SAFETY_REFUSAL)
      else
        usable ← Py.and (Py.contains "content" candidate)
                        (content ← Py.getitem candidate "content";
                         Py.contains "parts" content);
        if usable : bool then
          bot_text ← (content ← Py.getitem candidate "content";
                      parts ← Py.getitem content "parts";
                      part ← Py.getindex parts 0;
                      Py.getitem part "text");
          Ok (Reply bot_text)
        else Ok (Empty NO_PROPER_RESPONSE)
    else Ok (Empty NO_PROPER_RESPONSE)
  else Raise (Exception (error_message_of response)).

(** The turns a call leaves behind the user turn. *)
Definition appended (r : res outcome) : list json :=
  match r with
  | Ok (Reply text) => [turn "model" text]
  | _ => []
  end.

(** The result of a call for a given answer of the service. *)
Definition answer (n : net_result) : res outcome :=
  match n with
  | Failed e => Raise e
  | Responded r => classify r
  end.

(** A sequence of calls, each with the service it meets and the message
    it is given, run one after the other on the same process state. *)
Fixpoint run_calls (calls : list ((request -> net_result) * json))
    (w : world) : list (res outcome) * world :=
  match calls with
  | [] => ([], w)
  | (requests_post, user_message) :: rest =>
      let '(r, w1) := call_gemini_api requests_post user_message w in
      let '(rs, w2) := run_calls rest w1 in
      (r :: rs, w2)
  end.

(** The two turns a successful call adds. *)
Definition exchange (user_message text : json) : list json :=
  [turn "user" user_message; turn "model" text].

(** An entry of the form [{"role": ..., "parts": [{"text": ...}]}]. *)
Definition is_turn (v : json) : Prop :=
  exists role text, v = turn role text.

(** What [chat] answers for the result of the call it makes. *)
Definition boundary (r : res outcome) : http_response :=
  match r with
  | Ok o => Http 200 {[ "response" := returned o ]}
  | Raise e => Http 500 {[ "error" := JString (str_exn e) ]}
  end.

(** A service that gives the same answer to every request. *)
Definition answering (r : response) : request -> net_result :=
  fun _ => Responded r.

(** *** Sample inputs *)

Definition sample_runtime : Runtime :=
  {| GEMINI_API_KEY := "test-key";
     py_repr := fun _ => "<repr>";
     exn_text := fun e =>
       match e with
       | IndexError => "list index out of range"
       | TypeError => "<TypeError>"
       | AttributeError => "<AttributeError>"
       | _ => "<error>"
       end |}.

Definition start : world := {| conversation_history := []; sent := [] |}.

Definition hello : json := JObject {[ "message" := JString "Hello" ]}.

(** [{"candidates": [{"finishReason": "SAFETY"}]}] *)
Definition safety_response : response :=
  Response 200 (Some (JObject {[ "candidates" :=
    JArray [JObject {[ "finishReason" := JString "SAFETY" ]}] ]})).

(** [{"candidates": [{"content": {"parts": []}}]}] *)
Definition empty_parts_response : response :=
  Response 200 (Some (JObject {[ "candidates" :=
    JArray [JObject {[ "content" :=
      JObject {[ "parts" := JArray [] ]} ]}] ]})).

(** [{"candidates": [{"finishReason": reason,
                      "content": {"parts": [{"text": text}]}}]}] *)
Definition text_response (reason text : string) : response :=
  Response 200 (Some (JObject {[ "candidates" :=
    JArray [JObject {[
      "finishReason" := JString reason;
      "content" := JObject {[ "parts" :=
        JArray [JObject {[ "text" := JString text ]}] ]} ]}] ]})).

(** [{"candidates": []}] *)
Definition no_candidates_response : response :=
  Response 200 (Some (JObject {[ "candidates" := JArray [] ]})).

(** Status 429 with [{"error": {"message": "Quota exceeded"}}] *)
Definition quota_response : response :=
  Response 429 (Some (JObject {[ "error" :=
    JObject {[ "message" := JString "Quota exceeded" ]} ]})).

(** *** Requests to the application, one after the other *)

(** One request: [POST /chat] with the service it meets and its decoded
    body, or [POST /reset]. *)
Inductive invocation : Type :=
| PostChat (requests_post : request -> net_result) (request_json : json)
| PostReset.

Definition handle (i : invocation) : M http_response :=
  match i with
  | PostChat requests_post request_json => chat requests_post request_json
  | PostReset => reset
  end.

(** The process state after a sequence of requests. *)
Fixpoint serve (requests : list invocation) (w : world) : world :=
  match requests with
  | [] => w
  | i :: rest => serve rest (handle i w).2
  end.

(** A user turn whose message passed the test of [chat], alone or
    followed by the model turn that answers it. *)
Definition is_exchange (l : list json) : Prop :=
  exists m, Py.truthy m = true /\
    (l = [turn "user" m] \/ exists t, l = [turn "user" m; turn "model" t]).

(** A history made of such groups. *)
Definition well_formed (h : list json) : Prop :=
  exists groups, h = mjoin groups /\ Forall is_exchange groups.

(** *** Start-up *)

(** Lines 13-16: the key is read from the environment (as it stands
    after [load_dotenv()]), and a missing or empty key stops the program
    with [ValueError(message)], here [inl message]. *)
Definition startup (environ : gmap string string) : string + string :=
  match environ !! "GEMINI_API_KEY" with
  | Some key =>
      if negb (String.eqb key "") then inr key
      else inl "GEMINI_API_KEY not found in environment variables!"
  | None => inl "GEMINI_API_KEY not found in environment variables!"
  end.

(** The module-level assignment of lines 13-16 as the handlers see it:
    when the start-up test passes, they run with the key that was read;
    [repr] and [text] are the interpreter's renderings. *)
Definition boot (environ : gmap string string) (repr : json -> string)
    (text : exn -> string) : string + Runtime :=
  match startup environ with
  | inr key =>
      inr {| GEMINI_API_KEY := key; py_repr := repr; exn_text := text |}
  | inl message => inl message
  end.

(** Whether a call returned the extracted text. *)
Definition is_reply (r : res outcome) : bool :=
  match r with
  | Ok (Reply _) => true
  | _ => false
  end.

(** [{"candidates": [{"content": {"parts": [{"role": "model"}]}}]}] *)
Definition textless_response : response :=
  Response 200 (Some (JObject {[ "candidates" :=
    JArray [JObject {[ "content" :=
      JObject {[ "parts" :=
        JArray [JObject {[ "role" := JString "model" ]}] ]} ]}] ]})).

Lemma bind_Ok {A B : Type} (a : A) (f : A -> res B) : Ok a ≫= f = f a.
Proof. reflexivity. Qed.

Lemma bind_Raise {A B : Type} (e : exn) (f : A -> res B) :
  (Raise e : res A) ≫= f = Raise e.
Proof. reflexivity. Qed.

(** One call: the user turn is appended, one request goes out carrying
    the history with that turn, and the model turn follows exactly when
    the result is a reply. *)
Lemma call_gemini_api_eq (requests_post : request -> net_result)
    (user_message : json) (w : world) :
  let contents := conversation_history w ++ [turn "user" user_message] in
  let r := answer (requests_post (the_request contents)) in
  call_gemini_api requests_post user_message w =
    (r, {| conversation_history := contents ++ appended r;
           sent := sent w ++ [the_request contents] |}).
Proof.
  intros contents r. subst r.
  unfold call_gemini_api, history_append, history_read, send, py.
  unfold mbind, mret, M_bind, M_ret, res_bind.
  cbv beta. cbn [conversation_history sent]. fold contents.
  destruct (requests_post (the_request contents)) as [e|resp]; cbn [answer].
  { cbn. by rewrite app_nil_r. }
  unfold classify, mbind, res_bind. cbv beta.
  repeat case_match; simplify_eq; cbn; rewrite ?app_nil_r; reflexivity.
Qed.

(** *** Shapes of a response *)

Lemma first_candidate_inv (r : response) (c : json) :
  first_candidate r = Some c ->
  exists d l, decoded r = Some (JObject d) /\
              d !! "candidates" = Some (JArray (c :: l)).
Proof.
  unfold first_candidate. intros Hc.
  destruct (decoded r) as [[| | | | | |d]|]; try discriminate.
  cbn in Hc. destruct (d !! "candidates") as [[| | | | |l|]|] eqn:Hd;
    try discriminate.
  destruct l as [|c' l]; cbn in Hc; [discriminate|].
  injection Hc as ->. by exists d, l.
Qed.

Lemma content_text_inv (c text : json) :
  content_text c = Some text ->
  exists dc dt l dp,
    c = JObject dc /\ dc !! "content" = Some (JObject dt) /\
    dt !! "parts" = Some (JArray (JObject dp :: l)) /\
    dp !! "text" = Some text.
Proof.
  unfold content_text. intros Hc.
  destruct c as [| | | | | |dc]; try discriminate. cbn in Hc.
  destruct (dc !! "content") as [[| | | | | |dt]|] eqn:Hdc; try discriminate.
  cbn in Hc.
  destruct (dt !! "parts") as [[| | | | |l|]|] eqn:Hdt; try discriminate.
  destruct l as [|[| | | | | |dp] l]; try discriminate. cbn in Hc.
  by exists dc, dt, l, dp.
Qed.

Lemma eq_str_true (v : json) (s : string) :
  Py.eq_str v s = true <-> v = JString s.
Proof.
  destruct v; cbn; try (split; [discriminate|intros [=]]).
  rewrite String.eqb_eq. split; [by intros ->|by intros [= ->]].
Qed.

Lemma eq_str_false (v : json) (s : string) :
  v <> JString s -> Py.eq_str v s = false.
Proof.
  intros Hv. destruct (Py.eq_str v s) eqn:He; [|done].
  by apply eq_str_true in He.
Qed.

Lemma getindex_head (c : json) (l : list json) :
  Py.getindex (JArray (c :: l)) 0 = Ok c.
Proof.
  unfold Py.getindex, Py.position.
  replace (0 <? Z.of_nat (length (c :: l))) with true
    by (symmetry; apply Z.ltb_lt; cbn [length]; lia).
  reflexivity.
Qed.

(** Evaluation of the Python operations on values of known shape. *)
Ltac py_eval :=
  repeat first
    [ rewrite bind_Ok
    | rewrite bind_Raise
    | rewrite getindex_head
    | progress cbn [Py.and Py.contains Py.getitem Py.get] ].

Lemma head_candidate (d : gmap string json) (c : json) (l : list json) :
  d !! "candidates" = Some (JArray (c :: l)) ->
  Py.and (Py.contains "candidates" (JObject d))
         (cs ← Py.getitem (JObject d) "candidates";
          n ← Py.len cs;
          Ok (0 <? n)) = Ok true /\
  (cs ← Py.getitem (JObject d) "candidates"; Py.getindex cs 0) = Ok c.
Proof. intros Hd. cbn. rewrite Hd. by cbn. Qed.

Lemma not_blocked (dc : gmap string json) :
  dc !! "finishReason" <> Some (JString "SAFETY") ->
  Py.and (Py.contains "finishReason" (JObject dc))
         (fr ← Py.getitem (JObject dc) "finishReason";
          Ok (Py.eq_str fr "SAFETY")) = Ok false.
Proof.
  intros Hf. cbn. destruct (dc !! "finishReason") as [fr|]; cbn; [|done].
  rewrite eq_str_false; [done|congruence].
Qed.

(** A status other than 200 raises, whatever the body. *)
Lemma classify_not_200 (r : response) :
  status_code r <> 200 ->
  classify r = Raise (Exception (error_message_of r)).
Proof.
  intros Hs. unfold classify.
  by destruct (Z.eqb_spec (status_code r) 200).
Qed.

(** The message of that exception: the [error.message] field of the
    body when the body decodes to a dict that has it, else the default
    built from the status. *)
Lemma error_message_of_field (r : response) :
  error_message_of r =
    default (JString ("API Error " +:+ Py.int_str (status_code r)))
            (error_field r).
Proof.
  unfold error_message_of, error_field, response_json.
  destruct (decoded r) as [[| | | | s|l|d]|]; cbn; try reflexivity.
  - by destruct (Py.is_substring "error" s).
  - by destruct (existsb _ l).
  - destruct (d !! "error") as [[| | | | | |e]|]; cbn; try reflexivity.
    by destruct (e !! "message").
Qed.

(** A first candidate flagged [SAFETY] gives the refusal. *)
Lemma classify_safety (r : response) (c : json) :
  status_code r = 200 ->
  first_candidate r = Some c ->
  field "finishReason" c = Some (JString "SAFETY") ->
  classify r = Ok (Blocked SAFETY_REFUSAL).
Proof.
  intros Hs (d & l & Hr & Hd)%first_candidate_inv Hf.
  destruct (head_candidate d c l Hd) as [Hsome Hhead].
  unfold classify, response_json. rewrite Hs, Hr. cbn [Z.eqb Pos.eqb].
  rewrite bind_Ok, Hsome, bind_Ok, Hhead, bind_Ok.
  destruct c as [| | | | | |dc]; try discriminate. cbn in Hf.
  cbn. by rewrite Hf.
Qed.

(** A first candidate that is not flagged [SAFETY] and has the content
    path gives its text. *)
Lemma classify_reply (r : response) (c text : json) :
  status_code r = 200 ->
  first_candidate r = Some c ->
  field "finishReason" c <> Some (JString "SAFETY") ->
  content_text c = Some text ->
  classify r = Ok (Reply text).
Proof.
  intros Hs (d & l & Hr & Hd)%first_candidate_inv Hf
         (dc & dt & lp & dp & -> & Hdc & Hdt & Hdp)%content_text_inv.
  destruct (head_candidate d _ l Hd) as [Hsome Hhead].
  unfold classify, response_json. rewrite Hs, Hr. cbn [Z.eqb Pos.eqb].
  rewrite bind_Ok, Hsome, bind_Ok, Hhead, bind_Ok.
  rewrite (not_blocked dc Hf), bind_Ok.
  py_eval. rewrite Hdc. py_eval. rewrite Hdt. py_eval. by rewrite Hdp.
Qed.

(** Without candidates the fallback is returned. *)
Lemma classify_no_candidates (r : response) (d : gmap string json) :
  status_code r = 200 ->
  decoded r = Some (JObject d) ->
  d !! "candidates" = None \/ d !! "candidates" = Some (JArray []) ->
  classify r = Ok (Empty NO_PROPER_RESPONSE).
Proof.
  intros Hs Hr Hd. unfold classify, response_json.
  rewrite Hs, Hr. cbn. by destruct Hd as [-> | ->].
Qed.

(** So is it when the first candidate, not flagged [SAFETY], is a dict
    without [content], or with a [content] dict without [parts]. *)
Lemma classify_no_content (r : response) (dc : gmap string json) :
  status_code r = 200 ->
  first_candidate r = Some (JObject dc) ->
  dc !! "finishReason" <> Some (JString "SAFETY") ->
  dc !! "content" = None \/
    (exists dt, dc !! "content" = Some (JObject dt) /\ dt !! "parts" = None) ->
  classify r = Ok (Empty NO_PROPER_RESPONSE).
Proof.
  intros Hs (d & l & Hr & Hd)%first_candidate_inv Hf Hc.
  destruct (head_candidate d _ l Hd) as [Hsome Hhead].
  unfold classify, response_json. rewrite Hs, Hr. cbn [Z.eqb Pos.eqb].
  rewrite bind_Ok, Hsome, bind_Ok, Hhead, bind_Ok.
  rewrite (not_blocked dc Hf), bind_Ok. cbn.
  destruct Hc as [-> | (dt & -> & Hp)]; cbn; [done|]. by rewrite Hp.
Qed.

(** Every entry the call appends has the form of a turn. *)
Lemma call_keeps_turns (requests_post : request -> net_result)
    (user_message : json) (w : world) :
  Forall is_turn (conversation_history w) ->
  Forall is_turn
    (conversation_history (call_gemini_api requests_post user_message w).2).
Proof.
  intros Hw. rewrite call_gemini_api_eq. cbn [snd conversation_history].
  rewrite !Forall_app. split; [split; [done|]|].
  - apply Forall_singleton. by exists "user", user_message.
  - destruct (answer _) as [[text| |]|]; cbn [appended];
      [|by apply Forall_nil..].
    apply Forall_singleton. by exists "model", text.
Qed.

(** *** The handler around the call *)

Lemma chat_call (requests_post : request -> net_result)
    (request_json user_message : json) (w : world) :
  field "message" request_json = Some user_message ->
  Py.truthy user_message = true ->
  chat requests_post request_json w =
    (Ok (boundary (call_gemini_api requests_post user_message w).1),
     (call_gemini_api requests_post user_message w).2).
Proof.
  intros Hm Ht. destruct request_json as [| | | | | |d]; try discriminate.
  cbn in Hm. unfold chat, py, try_except.
  unfold mbind at 1. unfold M_bind at 1. cbn [Py.get]. rewrite Hm, Ht.
  cbn [negb]. unfold mbind, M_bind, mret, M_ret.
  by destruct (call_gemini_api requests_post user_message w) as [[o|e] w'].
Qed.

Lemma chat_falsy (requests_post : request -> net_result)
    (d : gmap string json) (w : world) :
  Py.truthy (default (JString "") (d !! "message")) = false ->
  chat requests_post (JObject d) w =
    (Ok (Http 400 {[ "error" := JString "No message provided" ]}), w).
Proof.
  intros Ht. unfold chat, py. unfold mbind at 1. unfold M_bind at 1.
  cbn [Py.get].
  replace (match d !! "message" with Some x => Ok x | None => Ok (JString "") end)
    with (Ok (default (JString "") (d !! "message")) : res json)
    by (by destruct (d !! "message")).
  by rewrite Ht.
Qed.

Lemma run_calls_history (calls : list ((request -> net_result) * json)) :
  forall (texts : list json) (w w' : world),
    run_calls calls w = ((fun t => Ok (Reply t)) <$> texts, w') ->
    conversation_history w' =
      conversation_history w ++
      mjoin (zip_with exchange (calls.*2) texts).
Proof.
  induction calls as [|[post m] calls IH]; intros texts w w' Hrun.
  - cbn in Hrun. injection Hrun as _ <-. cbn. by rewrite app_nil_r.
  - cbn [run_calls] in Hrun. rewrite call_gemini_api_eq in Hrun.
    destruct (run_calls calls _) as [rs w2] eqn:Hrest.
    destruct texts as [|t texts]; [discriminate|].
    cbn in Hrun. injection Hrun as Hr -> ->.
    apply IH in Hrest. rewrite Hrest, Hr. cbn.
    by rewrite <- !app_assoc.
Qed.

Lemma run_calls_length (calls : list ((request -> net_result) * json)) :
  forall (w : world), length (run_calls calls w).1 = length calls.
Proof.
  induction calls as [|[post m] calls IH]; intros w; [done|].
  cbn [run_calls].
  destruct (call_gemini_api post m w) as [r w1].
  specialize (IH w1). destruct (run_calls calls w1) as [rs w2].
  cbn in *. by rewrite IH.
Qed.

(** ** Properties of the specification *)

(** The floats of the generation parameters: the literal [0.7] is the
    binary64 value [6305039478318694 * 2^-53], within half a unit in the
    last place of 7/10, and likewise [0.9]. *)
Lemma float_lit_7_10 :
  Py.float_lit 7 10 = S754_finite false 6305039478318694 (-53) /\
  2 * Z.abs (10 * 6305039478318694 - 7 * 2 ^ 53) <= 10.
Proof. split; [by vm_compute | by vm_compute]. Qed.

Lemma float_lit_9_10 :
  Py.float_lit 9 10 = S754_finite false 8106479329266893 (-53) /\
  2 * Z.abs (10 * 8106479329266893 - 9 * 2 ^ 53) <= 10.
Proof. split; [by vm_compute | by vm_compute]. Qed.

(** C4: every call puts exactly one request on the wire, and its body
    is determined by the history at the start of the call and the
    message: [contents] is that history followed by the new user turn
    [{"role": "user", "parts": [{"text": message}]}], [systemInstruction]
    wraps the persona text as [{"parts": [{"text": ...}]}], and
    [generationConfig] is [{"temperature": 0.7, "topP": 0.9,
    "maxOutputTokens": 2048}]. *)
Theorem request_payload (requests_post : request -> net_result)
    (user_message : json) (w : world) :
  exists req : request,
    sent (call_gemini_api requests_post user_message w).2 = sent w ++ [req] /\
    json_body req =
      JObject {[
        "contents" :=
          JArray (conversation_history w ++
                  [JObject {[ "role" := JString "user";
                              "parts" :=
                                JArray [JObject {[ "text" := user_message ]}] ]}]);
        "systemInstruction" :=
          JObject {[ "parts" :=
            JArray [JObject {[ "text" := JString HAL_SYSTEM_INSTRUCTION ]}] ]};
        "generationConfig" :=
          JObject {[ "temperature" := JFloat (Py.float_lit 7 10);
                     "topP" := JFloat (Py.float_lit 9 10);
                     "maxOutputTokens" := JInt 2048 ]}
      ]}.
Proof.
  rewrite call_gemini_api_eq. cbn [snd sent].
  eexists. split; [reflexivity|]. reflexivity.
Qed.

(** C5: when the call meets a transport failure or a status other
    than 200, it raises, and the history is the one before the call
    followed by the user turn: one entry longer, without a model turn. *)
Theorem failed_call_keeps_user_turn (requests_post : request -> net_result)
    (user_message : json) (w : world) :
  let contents := conversation_history w ++ [turn "user" user_message] in
  let n := requests_post (the_request contents) in
  transport_error n \/ upstream_error n ->
  (exists e, (call_gemini_api requests_post user_message w).1 = Raise e) /\
  conversation_history (call_gemini_api requests_post user_message w).2 =
    contents /\
  length (conversation_history (call_gemini_api requests_post user_message w).2) =
    S (length (conversation_history w)).
Proof.
  intros contents n Hn. rewrite call_gemini_api_eq. fold contents. fold n.
  cbn [fst snd conversation_history].
  assert (exists e, answer n = Raise e) as [e He].
  { destruct Hn as [[e ->] | (r & -> & Hs)]; cbn [answer]; [by exists e|].
    rewrite classify_not_200 by done. by eexists. }
  rewrite He. cbn [appended]. rewrite app_nil_r. split; [by exists e|].
  split; [done|]. subst contents. rewrite length_app. cbn. lia.
Qed.

(** C6: a call that returns through the safety refusal or through the
    fallback for missing content leaves the history as it was before the
    call, followed by the user turn only. *)
Theorem blocked_or_empty_appends_user_turn_only
    (requests_post : request -> net_result) (user_message : json)
    (w : world) (message : string) :
  (call_gemini_api requests_post user_message w).1 = Ok (Blocked message) \/
  (call_gemini_api requests_post user_message w).1 = Ok (Empty message) ->
  conversation_history (call_gemini_api requests_post user_message w).2 =
    conversation_history w ++ [turn "user" user_message] /\
  length (conversation_history (call_gemini_api requests_post user_message w).2) =
    S (length (conversation_history w)).
Proof.
  rewrite call_gemini_api_eq. cbn [fst snd conversation_history].
  intros Ho.
  assert (appended (answer (requests_post (the_request
            (conversation_history w ++ [turn "user" user_message])))) = [])
    as ->.
  { by destruct Ho as [-> | ->]. }
  rewrite app_nil_r. split; [done|]. rewrite length_app. cbn. lia.
Qed.


(** C9: [reset] empties the history whatever it held, so that reading
    it afterwards gives the empty list, and answers 200 with
    [{"status": "reset"}]. *)
Theorem reset_clears_history (w : world) :
  (reset w).1 = Ok (Http 200 {[ "status" := JString "reset" ]}) /\
  conversation_history (reset w).2 = [] /\
  (history_read (reset w).2).1 = Ok [].
Proof. done. Qed.

(** C1, as the code has it: when the service answers 200 and the first
    candidate is flagged [SAFETY], [POST /chat] answers with status 200
    and the fixed refusal under the key [response], and the history is
    one entry longer: the user turn.  The handler answers 200 with
    whatever the call returns and 500, with [str(e)], only when the call
    raises [e]. *)
Theorem chat_safety_block (requests_post : request -> net_result)
    (request_json user_message : json) (w : world) (r : response)
    (candidate : json) :
  field "message" request_json = Some user_message ->
  Py.truthy user_message = true ->
  requests_post
    (the_request (conversation_history w ++ [turn "user" user_message])) =
    Responded r ->
  status_code r = 200 ->
  first_candidate r = Some candidate ->
  field "finishReason" candidate = Some (JString "SAFETY") ->
  (chat requests_post request_json w).1 =
    Ok (Http 200 {[ "response" := JString SAFETY_REFUSAL ]}) /\
  conversation_history (chat requests_post request_json w).2 =
    conversation_history w ++ [turn "user" user_message] /\
  length (conversation_history (chat requests_post request_json w).2) =
    S (length (conversation_history w)) /\
  (forall (service : request -> net_result) (body message : json)
          (w0 : world),
     field "message" body = Some message ->
     Py.truthy message = true ->
     (chat service body w0).1 =
       Ok match (call_gemini_api service message w0).1 with
          | Ok o => Http 200 {[ "response" := returned o ]}
          | Raise e => Http 500 {[ "error" := JString (str_exn e) ]}
          end).
Proof.
  intros Hm Ht Hpost Hs Hc Hf.
  rewrite (chat_call _ _ _ _ Hm Ht), call_gemini_api_eq, Hpost.
  cbn [answer fst snd conversation_history].
  rewrite (classify_safety r candidate Hs Hc Hf).
  cbn [appended boundary returned]. rewrite app_nil_r.
  split; [done|]. split; [done|]. split; [rewrite length_app; cbn; lia|].
  intros service body message w0 Hm0 Ht0.
  by rewrite (chat_call _ _ _ _ Hm0 Ht0).
Qed.

(** C2, where the code departs from it: a 200 response whose first
    candidate has a [content] with an empty [parts] list makes the call
    raise [IndexError] after the user turn was appended, and [POST /chat]
    answers 500 with the message of that exception. *)
Theorem empty_parts_raises (user_message : json) (w : world) :
  call_gemini_api (answering empty_parts_response) user_message w =
    (Raise IndexError,
     {| conversation_history :=
          conversation_history w ++ [turn "user" user_message];
        sent := sent w ++
          [the_request (conversation_history w ++ [turn "user" user_message])] |})
  /\ (chat (answering empty_parts_response) hello w).1 =
       Ok (Http 500 {[ "error" := JString (exn_text IndexError) ]}).
Proof.
  split.
  - rewrite call_gemini_api_eq. unfold answering. cbn [answer].
    replace (classify empty_parts_response) with (Raise IndexError : res outcome)
      by (by vm_compute).
    cbn [appended]. by rewrite app_nil_r.
  - rewrite (chat_call _ _ (JString "Hello")) by (by vm_compute).
    rewrite call_gemini_api_eq. unfold answering. cbn [answer fst].
    replace (classify empty_parts_response) with (Raise IndexError : res outcome)
      by (by vm_compute).
    reflexivity.
Qed.

(** C3: from an empty history, a sequence of calls that all return a
    reply leaves the history with two entries per call: for each call, in
    order, the user turn with its message and then the model turn with
    the text it returned. *)
Theorem transcript_growth (calls : list ((request -> net_result) * json))
    (texts : list json) (w : world) :
  conversation_history w = [] ->
  (run_calls calls w).1 = (fun t => Ok (Reply t)) <$> texts ->
  conversation_history (run_calls calls w).2 =
    mjoin (zip_with exchange (calls.*2) texts) /\
  length (conversation_history (run_calls calls w).2) =
    (2 * length calls)%nat.
Proof.
  intros Hw Hrs.
  assert (length texts = length calls) as Hlen.
  { rewrite <- (run_calls_length calls w), Hrs. by rewrite length_fmap. }
  destruct (run_calls calls w) as [rs w'] eqn:Hrun. cbn [fst snd] in *.
  subst rs. apply run_calls_history in Hrun. rewrite Hw in Hrun.
  cbn in Hrun. rewrite Hrun. split; [done|].
  clear Hrun Hw w w'. revert texts Hlen.
  induction calls as [|c calls IH]; intros [|t texts] Hlen;
    try discriminate; [done|].
  cbn in *. rewrite IH by lia. lia.
Qed.

(** C7: when the service answers with a status other than 200, the
    call raises [Exception(message)], where [message] is the
    [error.message] field of the decoded body when there is one and
    ["API Error <status>"] otherwise; only the user turn is appended, and
    [POST /chat] answers 500 with [str(message)] under the key [error],
    which is the message itself when it is a string. *)
Theorem upstream_error_message (requests_post : request -> net_result)
    (request_json user_message : json) (w : world) (r : response) :
  let contents := conversation_history w ++ [turn "user" user_message] in
  let message :=
    default (JString ("API Error " +:+ Py.int_str (status_code r)))
            (error_field r) in
  field "message" request_json = Some user_message ->
  Py.truthy user_message = true ->
  requests_post (the_request contents) = Responded r ->
  status_code r <> 200 ->
  call_gemini_api requests_post user_message w =
    (Raise (Exception message),
     {| conversation_history := contents;
        sent := sent w ++ [the_request contents] |}) /\
  chat requests_post request_json w =
    (Ok (Http 500 {[ "error" := JString (py_str message) ]}),
     {| conversation_history := contents;
        sent := sent w ++ [the_request contents] |}) /\
  (forall s, message = JString s -> py_str message = s).
Proof.
  intros contents message Hm Ht Hpost Hs.
  assert (call_gemini_api requests_post user_message w =
            (Raise (Exception message),
             {| conversation_history := contents;
                sent := sent w ++ [the_request contents] |})) as Hcall.
  { rewrite call_gemini_api_eq. fold contents. rewrite Hpost.
    cbn [answer]. rewrite (classify_not_200 r Hs), error_message_of_field.
    fold message. cbn [appended]. by rewrite app_nil_r. }
  split; [done|]. split.
  - by rewrite (chat_call _ _ _ _ Hm Ht), Hcall.
  - by intros s ->.
Qed.

(** C10: when the service answers 200 and the first candidate carries
    a [finishReason] other than the string ["SAFETY"] together with the
    content path, the call returns the text as a reply and the history
    is the one before the call followed by the user turn and the model
    turn with that text. *)
Theorem other_finish_reason_is_reply (requests_post : request -> net_result)
    (user_message : json) (w : world) (r : response)
    (candidate reason text : json) :
  requests_post
    (the_request (conversation_history w ++ [turn "user" user_message])) =
    Responded r ->
  status_code r = 200 ->
  first_candidate r = Some candidate ->
  field "finishReason" candidate = Some reason ->
  reason <> JString "SAFETY" ->
  content_text candidate = Some text ->
  (call_gemini_api requests_post user_message w).1 = Ok (Reply text) /\
  conversation_history (call_gemini_api requests_post user_message w).2 =
    conversation_history w ++
    [turn "user" user_message; turn "model" text].
Proof.
  intros Hpost Hs Hc Hf Hr Ht.
  rewrite call_gemini_api_eq, Hpost. cbn [answer fst snd conversation_history].
  rewrite (classify_reply r candidate text Hs Hc) by (done || congruence).
  cbn [appended]. split; [done|]. by rewrite <- app_assoc.
Qed.

(** ** Further properties of the handlers *)

(** The three ways [chat] can go, by the decoded body. *)
Lemma chat_not_dict (requests_post : request -> net_result)
    (request_json : json) (w : world) :
  (forall d, request_json <> JObject d) ->
  chat requests_post request_json w = (Raise AttributeError, w).
Proof.
  intros Hd. destruct request_json; try reflexivity. by destruct (Hd d).
Qed.

Lemma truthy_message (d : gmap string json) :
  Py.truthy (default (JString "") (d !! "message")) = true ->
  exists m, d !! "message" = Some m /\ Py.truthy m = true.
Proof.
  destruct (d !! "message") as [m|]; cbn; [by exists m|discriminate].
Qed.

(** X1: a request body that decodes to anything but a dict makes the
    first line of [chat] raise [AttributeError]; the exception leaves
    the handler, and the process state is untouched. *)
Theorem chat_body_not_a_dict (requests_post : request -> net_result)
    (request_json : json) (w : world) :
  (forall d, request_json <> JObject d) ->
  (chat requests_post request_json w).1 = Raise AttributeError /\
  (chat requests_post request_json w).2 = w.
Proof. intros Hd. by rewrite chat_not_dict. Qed.

(** X2: [chat] rejects every message whose truth value is false, not
    only the empty string: [null], [false], [0], [0.0], the empty list
    and the empty dict are answered 400 with
    [{"error": "No message provided"}], without a call to the service
    and without a change of the history. *)
Theorem falsy_message_rejected (requests_post : request -> net_result)
    (d : gmap string json) (message : json) (w : world) :
  d !! "message" = Some message ->
  message ∈ [JNull; JBool false; JInt 0; JFloat (S754_zero false);
             JFloat (S754_zero true); JString ""; JArray []; JObject ∅] ->
  chat requests_post (JObject d) w =
    (Ok (Http 400 {[ "error" := JString "No message provided" ]}), w).
Proof.
  intros Hd Hm. apply chat_falsy. rewrite Hd. cbn [default].
  repeat (apply elem_of_cons in Hm as [-> | Hm]; [reflexivity|]).
  by apply elem_of_nil in Hm.
Qed.

(** X3: whatever the service does, [chat] on a dict body returns an
    answer and lets no exception through.  The answer is a 400 with the
    state unchanged, or a 200 whose body has the single key [response],
    or a 500 whose body has the single key [error] with a string. *)
Theorem chat_always_answers (requests_post : request -> net_result)
    (d : gmap string json) (w : world) :
  exists answer : http_response,
    (chat requests_post (JObject d) w).1 = Ok answer /\
    ((http_status answer = 400 /\
      http_body answer = {[ "error" := JString "No message provided" ]} /\
      (chat requests_post (JObject d) w).2 = w) \/
     (http_status answer = 200 /\
      exists v, http_body answer = {[ "response" := v ]}) \/
     (http_status answer = 500 /\
      exists s, http_body answer = {[ "error" := JString s ]})).
Proof.
  destruct (Py.truthy (default (JString "") (d !! "message"))) eqn:Ht.
  - apply truthy_message in Ht as (m & Hm & Ht).
    rewrite (chat_call _ (JObject d) m w Hm Ht).
    eexists. split; [reflexivity|]. right.
    destruct (call_gemini_api requests_post m w).1 as [o|e]; cbn.
    + left. split; [done|]. by eexists.
    + right. split; [done|]. by eexists.
  - rewrite (chat_falsy _ _ _ Ht). eexists. split; [reflexivity|].
    by left.
Qed.

(** X4: [chat] only ever appends to the history, at most two entries,
    and sends at most one request: what was in the history or in the log
    of requests before is still there, in place, whatever the body and
    whatever the service answers. *)
Theorem chat_appends_only (requests_post : request -> net_result)
    (request_json : json) (w : world) :
  exists added requests,
    conversation_history (chat requests_post request_json w).2 =
      conversation_history w ++ added /\
    sent (chat requests_post request_json w).2 = sent w ++ requests /\
    (length added <= 2)%nat /\ (length requests <= 1)%nat /\
    (length requests = 0%nat -> added = []).
Proof.
  assert (exists added requests,
            conversation_history w = conversation_history w ++ added /\
            sent w = sent w ++ requests /\
            (length added <= 2)%nat /\ (length requests <= 1)%nat /\
            (length requests = 0%nat -> added = [])) as Hsame.
  { exists [], []. rewrite !app_nil_r. cbn. repeat split; done || lia. }
  destruct request_json as [| | | | | |d];
    try (rewrite chat_not_dict by done; exact Hsame).
  destruct (Py.truthy (default (JString "") (d !! "message"))) eqn:Ht.
  - apply truthy_message in Ht as (m & Hm & Ht).
    rewrite (chat_call _ (JObject d) m w Hm Ht), call_gemini_api_eq.
    cbn [snd conversation_history sent].
    eexists (_ :: appended _), [_]. rewrite <- app_assoc.
    split; [reflexivity|]. split; [reflexivity|].
    split; [|split; [cbn; lia|discriminate]].
    destruct (answer _) as [[t| |]|]; cbn; lia.
  - rewrite (chat_falsy _ _ _ Ht). exact Hsame.
Qed.

(** *** Which responses give which result *)

Lemma getindex_0_inv (l : list json) (x : json) :
  Py.position (length l) 0 ≫= (fun i => l !! i) = Some x ->
  exists l', l = x :: l'.
Proof.
  destruct l as [|y l]; [discriminate|].
  unfold Py.position.
  replace (0 <? Z.of_nat (length (y :: l))) with true
    by (symmetry; apply Z.ltb_lt; cbn [length]; lia).
  cbn. intros [= ->]. by exists l.
Qed.

Lemma classify_reply_inv (r : response) (text : json) :
  classify r = Ok (Reply text) ->
  status_code r = 200 /\
  exists c, first_candidate r = Some c /\
            field "finishReason" c <> Some (JString "SAFETY") /\
            content_text c = Some text.
Proof.
  unfold classify, response_json, first_candidate.
  destruct (Z.eqb_spec (status_code r) 200) as [Hs|]; [|discriminate].
  intros Hc. split; [done|].
  destruct (decoded r) as [result|]; [|discriminate].
  unfold content_text, field, elements.
  unfold mbind, res_bind, option_bind in *.
  unfold Py.and, Py.contains, Py.getitem, Py.getindex, Py.len in Hc.
  repeat (case_match; simplify_eq/=);
    repeat match goal with
           | Hp : Py.position _ 0 ≫= _ = Some _ |- _ =>
               apply getindex_0_inv in Hp as [? ->]
           end;
    (eexists; split; [reflexivity|]); cbn;
    (split;
     [ intros ?; simplify_eq/=
     | repeat match goal with
              | Hk : ?d !! ?k = Some _ |- context [?d !! ?k] =>
                  rewrite Hk; cbn
              end; done ]).
Qed.

Lemma classify_blocked_inv (r : response) (message : string) :
  classify r = Ok (Blocked message) ->
  message = SAFETY_REFUSAL /\ status_code r = 200 /\
  exists c, first_candidate r = Some c /\
            field "finishReason" c = Some (JString "SAFETY").
Proof.
  unfold classify, response_json, first_candidate.
  destruct (Z.eqb_spec (status_code r) 200) as [Hs|]; [|discriminate].
  intros Hc.
  destruct (decoded r) as [result|]; [|discriminate].
  unfold field, elements.
  unfold mbind, res_bind, option_bind in *.
  unfold Py.and, Py.contains, Py.getitem, Py.getindex, Py.len in Hc.
  repeat (case_match; simplify_eq/=);
    repeat match goal with
           | Hp : Py.position _ 0 ≫= _ = Some _ |- _ =>
               apply getindex_0_inv in Hp as [? ->]
           | He : Py.eq_str _ _ = true |- _ => apply eq_str_true in He as ->
           end;
    (split; [done|]); (split; [done|]);
    (eexists; split; [reflexivity|]); done.
Qed.

(** X5: the call returns a reply with text [text] exactly when the
    service answered 200 with a body whose [candidates] is a list, whose
    first candidate is not flagged [SAFETY], and where [text] sits at
    [content.parts[0].text] of that candidate.  No other response is
    ever turned into a reply. *)
Theorem reply_exactly_from_content_path
    (requests_post : request -> net_result) (user_message text : json)
    (w : world) :
  (call_gemini_api requests_post user_message w).1 = Ok (Reply text) <->
  exists r c,
    requests_post
      (the_request (conversation_history w ++ [turn "user" user_message])) =
      Responded r /\
    status_code r = 200 /\
    first_candidate r = Some c /\
    field "finishReason" c <> Some (JString "SAFETY") /\
    content_text c = Some text.
Proof.
  rewrite call_gemini_api_eq. cbn [fst]. split.
  - destruct (requests_post _) as [e|r]; cbn [answer]; [discriminate|].
    intros (Hs & c & Hc & Hf & Ht)%classify_reply_inv. by exists r, c.
  - intros (r & c & -> & Hs & Hc & Hf & Ht). cbn [answer].
    by apply (classify_reply r c).
Qed.

(** X6: the call returns the safety refusal exactly when the service
    answered 200 with a first candidate whose [finishReason] is the
    string ["SAFETY"], whether or not that candidate also carries
    content; the text returned is then always the fixed refusal. *)
Theorem blocked_exactly_on_safety
    (requests_post : request -> net_result) (user_message : json)
    (w : world) (message : string) :
  (call_gemini_api requests_post user_message w).1 = Ok (Blocked message) <->
  message = SAFETY_REFUSAL /\
  exists r c,
    requests_post
      (the_request (conversation_history w ++ [turn "user" user_message])) =
      Responded r /\
    status_code r = 200 /\
    first_candidate r = Some c /\
    field "finishReason" c = Some (JString "SAFETY").
Proof.
  rewrite call_gemini_api_eq. cbn [fst]. split.
  - destruct (requests_post _) as [e|r]; cbn [answer]; [discriminate|].
    intros (-> & Hs & c & Hc & Hf)%classify_blocked_inv.
    split; [done|]. by exists r, c.
  - intros (-> & r & c & -> & Hs & Hc & Hf). cbn [answer].
    by apply (classify_safety r c).
Qed.

(** X7: once the tests of line 115 pass ([content] is a dict that has
    [parts], on a first candidate not flagged [SAFETY]), line 116 decides
    alone.  With [parts] a list: an empty list raises [IndexError], a
    first part that is a dict without [text] raises [KeyError('text')], a
    first part that is not a dict raises [TypeError], and only a first
    part with [text] gives the reply.  In the failing cases the user turn
    stays in the history and nothing follows it. *)
Theorem parts_list_decides (requests_post : request -> net_result)
    (user_message : json) (w : world) (r : response)
    (dc dt : gmap string json) (parts : list json) :
  let contents := conversation_history w ++ [turn "user" user_message] in
  requests_post (the_request contents) = Responded r ->
  status_code r = 200 ->
  first_candidate r = Some (JObject dc) ->
  dc !! "finishReason" <> Some (JString "SAFETY") ->
  dc !! "content" = Some (JObject dt) ->
  dt !! "parts" = Some (JArray parts) ->
  match parts with
  | [] =>
      (call_gemini_api requests_post user_message w).1 = Raise IndexError /\
      conversation_history (call_gemini_api requests_post user_message w).2 =
        contents
  | JObject part :: _ =>
      match part !! "text" with
      | Some text =>
          (call_gemini_api requests_post user_message w).1 = Ok (Reply text)
      | None =>
          (call_gemini_api requests_post user_message w).1 =
            Raise (KeyError (JString "text")) /\
          conversation_history
            (call_gemini_api requests_post user_message w).2 = contents
      end
  | _ :: _ =>
      (call_gemini_api requests_post user_message w).1 = Raise TypeError /\
      conversation_history (call_gemini_api requests_post user_message w).2 =
        contents
  end.
Proof.
  intros contents Hpost Hs (d & l & Hr & Hd)%first_candidate_inv Hf Hdc Hdt.
  destruct (head_candidate d _ l Hd) as [Hsome Hhead].
  rewrite call_gemini_api_eq. fold contents. rewrite Hpost.
  cbn [answer fst snd conversation_history].
  assert (classify r =
            (part ← Py.getindex (JArray parts) 0;
             bot_text ← Py.getitem part "text";
             Ok (Reply bot_text))) as ->.
  { unfold classify, response_json. rewrite Hs, Hr. cbn [Z.eqb Pos.eqb].
    rewrite bind_Ok, Hsome, bind_Ok, Hhead, bind_Ok.
    rewrite (not_blocked dc Hf), bind_Ok.
    py_eval. rewrite Hdc. py_eval. rewrite Hdt. py_eval.
    by destruct (Py.getindex (JArray parts) 0) as [part|e]. }
  destruct parts as [|part parts].
  { cbn. by rewrite app_nil_r. }
  rewrite getindex_head, bind_Ok.
  destruct part as [| | | | | |part]; cbn; rewrite ?app_nil_r; try done.
  destruct (part !! "text"); cbn; by rewrite ?app_nil_r.
Qed.

(** X8: a 200 response whose body is not a JSON object never gives a
    reply or a refusal.  A body that is not JSON at all raises the
    decoding error of [response.json()]; any other body gives the
    fallback text or raises [TypeError].  In every case the history
    gains the user turn and nothing else. *)
Theorem body_not_an_object (requests_post : request -> net_result)
    (user_message : json) (w : world) (r : response) :
  let contents := conversation_history w ++ [turn "user" user_message] in
  requests_post (the_request contents) = Responded r ->
  status_code r = 200 ->
  (forall d, decoded r <> Some (JObject d)) ->
  ((call_gemini_api requests_post user_message w).1 =
     Ok (Empty NO_PROPER_RESPONSE) \/
   (call_gemini_api requests_post user_message w).1 = Raise TypeError \/
   (call_gemini_api requests_post user_message w).1 = Raise JSONDecodeError) /\
  ((call_gemini_api requests_post user_message w).1 = Raise JSONDecodeError <->
   decoded r = None) /\
  conversation_history (call_gemini_api requests_post user_message w).2 =
    contents.
Proof.
  intros contents Hpost Hs Hd.
  rewrite call_gemini_api_eq. fold contents. rewrite Hpost.
  cbn [answer fst snd conversation_history].
  unfold classify, response_json. rewrite Hs. cbn [Z.eqb Pos.eqb].
  destruct (decoded r) as [[| | | | s|l|d]|];
    [..|by destruct (Hd d)|]; cbn;
    try destruct (Py.is_substring "candidates" s);
    try destruct (existsb _ l); cbn;
    rewrite ?app_nil_r; (split; [|split]); naive_solver.
Qed.

(** *** How the handlers compose *)

(** X9: after [reset], the next call sends a request whose [contents]
    holds the new user turn and nothing from before, whatever the history
    was; the history then starts with that turn, followed by at most
    one entry. *)
Theorem reset_forgets_context (requests_post : request -> net_result)
    (user_message : json) (w : world) :
  exists req rest,
    sent (call_gemini_api requests_post user_message (reset w).2).2 =
      sent w ++ [req] /\
    field "contents" (json_body req) =
      Some (JArray [turn "user" user_message]) /\
    conversation_history
      (call_gemini_api requests_post user_message (reset w).2).2 =
      turn "user" user_message :: rest /\
    (length rest <= 1)%nat.
Proof.
  rewrite call_gemini_api_eq. cbn [snd conversation_history sent reset].
  unfold reset, history_clear, mbind, M_bind, mret, M_ret.
  cbn [snd conversation_history sent app].
  eexists _, _. split; [reflexivity|]. split; [reflexivity|].
  split; [reflexivity|].
  destruct (answer _) as [[t| |]|]; cbn; lia.
Qed.

Lemma handle_well_formed (i : invocation) (w : world) :
  well_formed (conversation_history w) ->
  well_formed (conversation_history (handle i w).2).
Proof.
  intros Hw. destruct i as [post body|]; cbn [handle].
  - destruct body as [| | | | | |d];
      try (rewrite chat_not_dict by done; exact Hw).
    destruct (Py.truthy (default (JString "") (d !! "message"))) eqn:Ht.
    + apply truthy_message in Ht as (m & Hm & Ht).
      rewrite (chat_call _ (JObject d) m w Hm Ht), call_gemini_api_eq.
      cbn [snd conversation_history].
      destruct Hw as (groups & -> & Hgroups).
      exists (groups ++ [[turn "user" m] ++ appended (answer (post
                (the_request (mjoin groups ++ [turn "user" m]))))]).
      split.
      * rewrite join_app. cbn. rewrite app_nil_r.
        by rewrite <- app_assoc.
      * apply Forall_app. split; [done|]. apply Forall_singleton.
        exists m. split; [done|].
        destruct (answer _) as [[t| |]|]; cbn; eauto.
    + by rewrite (chat_falsy _ _ _ Ht).
  - by exists [].
Qed.

(** X10: whatever requests the application serves from an empty
    history, and whatever the service answers, the history is a sequence
    of groups, each a user turn alone or a user turn followed by one model
    turn; the message of every user turn is one that passed the test of
    [chat].  So the history never starts with a model turn, and no model
    turn follows another. *)
Theorem served_history_well_formed (requests : list invocation)
    (log : list request) :
  well_formed
    (conversation_history
       (serve requests {| conversation_history := []; sent := log |})).
Proof.
  assert (forall w, well_formed (conversation_history w) ->
                    well_formed (conversation_history (serve requests w)))
    as Hserve.
  { induction requests as [|i requests IH]; intros w Hw; [done|].
    cbn [serve]. by apply IH, handle_well_formed. }
  apply Hserve. by exists [].
Qed.

(** X11: a user turn that got no reply (the call raised, or returned
    the refusal or the fallback) is sent again with the next call: the
    [contents] of the next request end with the two user turns in a row. *)
Theorem unanswered_turn_is_sent_again
    (first_post next_post : request -> net_result)
    (first_message next_message : json) (w : world) :
  (forall text,
     (call_gemini_api first_post first_message w).1 <> Ok (Reply text)) ->
  exists req,
    last (sent (call_gemini_api next_post next_message
                  (call_gemini_api first_post first_message w).2).2) =
      Some req /\
    field "contents" (json_body req) =
      Some (JArray (conversation_history w ++
                    [turn "user" first_message; turn "user" next_message])).
Proof.
  intros Hno. rewrite (call_gemini_api_eq next_post).
  cbn [snd sent]. rewrite last_snoc. eexists. split; [reflexivity|].
  rewrite call_gemini_api_eq in Hno |- *. cbn [fst snd conversation_history] in *.
  destruct (answer _) as [[t| |]|]; [by destruct (Hno t)|..];
    cbn [appended]; rewrite app_nil_r, <- app_assoc; reflexivity.
Qed.

(** X12: for any sequence of calls, the history grows by one entry per
    call plus one per reply. *)
Theorem history_length_accounting
    (calls : list ((request -> net_result) * json)) (w : world) :
  length (conversation_history (run_calls calls w).2) =
    (length (conversation_history w) + length calls +
     length (filter (fun r => is_reply r = true) (run_calls calls w).1))%nat.
Proof.
  revert w. induction calls as [|[post m] calls IH]; intros w.
  { cbn. lia. }
  cbn [run_calls]. rewrite call_gemini_api_eq.
  specialize (IH {| conversation_history :=
                      (conversation_history w ++ [turn "user" m]) ++
                      appended (answer (post (the_request
                        (conversation_history w ++ [turn "user" m]))));
                    sent := sent w ++ [the_request
                        (conversation_history w ++ [turn "user" m])] |}).
  destruct (run_calls calls _) as [rs w2]. cbn [fst snd] in *.
  rewrite IH. cbn [conversation_history]. rewrite !length_app.
  rewrite filter_cons.
  destruct (answer _) as [[t| |]|]; cbn [is_reply appended];
    case_decide; try done; cbn [length]; lia.
Qed.

(** *** Start-up and the request around the payload *)

Lemma startup_key (environ : gmap string string) (key : string) :
  startup environ = inr key <->
  environ !! "GEMINI_API_KEY" = Some key /\ key <> "".
Proof.
  unfold startup. destruct (environ !! "GEMINI_API_KEY") as [k|].
  - destruct (String.eqb_spec k "") as [-> | Hk]; cbn.
    + split; [discriminate|]. by intros [[= <-] Hne].
    + split; [by intros [= ->]|]. by intros [[= ->] _].
  - split; [discriminate|]. by intros [? _].
Qed.

(** *** More shapes of a 200 response *)

Lemma no_key_in_char (k : string) (c : Ascii.ascii) :
  (1 < String.length k)%nat ->
  Py.is_substring k (String c EmptyString) = false.
Proof.
  destruct k as [|a [|b k]]; cbn; try lia. intros _.
  by destruct (Ascii.ascii_dec a c).
Qed.

Lemma getindex_char (c : Ascii.ascii) (s : string) :
  Py.getindex (JString (String c s)) 0 = Ok (JString (String c EmptyString)).
Proof.
  unfold Py.getindex, Py.position.
  replace (0 <? Z.of_nat (String.length (String c s))) with true
    by (symmetry; apply Z.ltb_lt; cbn [String.length]; lia).
  reflexivity.
Qed.

(** X14: when [candidates] is present but is not a list, the call
    never gives a reply or a refusal.  A string, empty or not, gives
    the fallback text; so does an empty dict; a dict with entries raises
    [KeyError(0)]; [null], a boolean or a number raises [TypeError]. *)
Theorem candidates_not_a_list (requests_post : request -> net_result)
    (user_message : json) (w : world) (r : response)
    (d : gmap string json) (candidates : json) :
  requests_post
    (the_request (conversation_history w ++ [turn "user" user_message])) =
    Responded r ->
  status_code r = 200 ->
  decoded r = Some (JObject d) ->
  d !! "candidates" = Some candidates ->
  (forall l, candidates <> JArray l) ->
  (call_gemini_api requests_post user_message w).1 =
    match candidates with
    | JString _ => Ok (Empty NO_PROPER_RESPONSE)
    | JObject entries =>
        if decide (entries = ∅) then Ok (Empty NO_PROPER_RESPONSE)
        else Raise (KeyError (JInt 0))
    | _ => Raise TypeError
    end.
Proof.
  intros Hpost Hs Hr Hd Hl. rewrite call_gemini_api_eq, Hpost.
  cbn [answer fst]. unfold classify, response_json.
  rewrite Hs, Hr. cbn [Z.eqb Pos.eqb]. py_eval. rewrite Hd. py_eval.
  destruct candidates as [| | | |s|l|entries]; try reflexivity.
  - destruct s as [|c s]; [reflexivity|].
    cbn [Py.len String.length]. rewrite bind_Ok.
    replace (0 <? Z.of_nat (S (String.length s))) with true
      by (symmetry; apply Z.ltb_lt; lia).
    rewrite bind_Ok, getindex_char, bind_Ok. cbn [Py.and Py.contains].
    rewrite !no_key_in_char by (cbn; lia). reflexivity.
  - by destruct (Hl l).
  - cbn [Py.len]. rewrite bind_Ok. case_decide as He.
    + subst entries. reflexivity.
    + replace (0 <? Z.of_nat (size entries)) with true; [reflexivity|].
      symmetry. apply Z.ltb_lt.
      assert (size entries <> 0%nat) by (by intros ?%map_size_empty_inv).
      lia.
Qed.

(** X15: the positive side of the fallback.  On a 200 response whose
    body is a dict without [candidates] or with an empty list, or whose
    first candidate is a dict, not flagged [SAFETY], without [content] or
    with a [content] dict without [parts], the call returns the fixed
    fallback text and [POST /chat] answers it with status 200 under
    [response]; the history gains the user turn only. *)
Theorem fallback_on_missing_content (requests_post : request -> net_result)
    (request_json user_message : json) (w : world) (r : response)
    (d : gmap string json) :
  let contents := conversation_history w ++ [turn "user" user_message] in
  field "message" request_json = Some user_message ->
  Py.truthy user_message = true ->
  requests_post (the_request contents) = Responded r ->
  status_code r = 200 ->
  decoded r = Some (JObject d) ->
  (d !! "candidates" = None \/
   d !! "candidates" = Some (JArray []) \/
   exists dc l,
     d !! "candidates" = Some (JArray (JObject dc :: l)) /\
     dc !! "finishReason" <> Some (JString "SAFETY") /\
     (dc !! "content" = None \/
      exists dt, dc !! "content" = Some (JObject dt) /\
                 dt !! "parts" = None)) ->
  (call_gemini_api requests_post user_message w).1 =
    Ok (Empty NO_PROPER_RESPONSE) /\
  (chat requests_post request_json w).1 =
    Ok (Http 200 {[ "response" := JString NO_PROPER_RESPONSE ]}) /\
  conversation_history (chat requests_post request_json w).2 = contents.
Proof.
  intros contents Hm Ht Hpost Hs Hr Hshape.
  assert (classify r = Ok (Empty NO_PROPER_RESPONSE)) as Hc.
  { destruct Hshape as [Hd | [Hd | (dc & l & Hd & Hf & Hcontent)]].
    - apply (classify_no_candidates r d); auto.
    - apply (classify_no_candidates r d); auto.
    - apply (classify_no_content r dc); try done.
      unfold first_candidate. rewrite Hr. cbn. by rewrite Hd. }
  rewrite (chat_call _ _ _ _ Hm Ht), call_gemini_api_eq.
  fold contents. rewrite Hpost. cbn [answer fst snd conversation_history].
  rewrite Hc. cbn [appended boundary returned]. by rewrite app_nil_r.
Qed.

(** X16: when [requests.post] raises, the exception is raised again
    by the call and caught by [chat], which answers 500 with the text
    of that exception under [error]; the user turn is in the history and
    the request is in the log. *)
Theorem transport_failure_reported (requests_post : request -> net_result)
    (request_json user_message : json) (w : world) (e : exn) :
  let contents := conversation_history w ++ [turn "user" user_message] in
  field "message" request_json = Some user_message ->
  Py.truthy user_message = true ->
  requests_post (the_request contents) = Failed e ->
  chat requests_post request_json w =
    (Ok (Http 500 {[ "error" := JString (str_exn e) ]}),
     {| conversation_history := contents;
        sent := sent w ++ [the_request contents] |}) /\
  (forall msg, e = RequestException msg -> str_exn e = msg).
Proof.
  intros contents Hm Ht Hpost. split; [|by intros msg ->].
  rewrite (chat_call _ _ _ _ Hm Ht), call_gemini_api_eq.
  fold contents. rewrite Hpost. cbn. by rewrite app_nil_r.
Qed.

End Classification.

(** X13: the program starts only when [GEMINI_API_KEY] is present in
    the environment and not empty, and it stops with the [ValueError] of
    line 16 when the variable is absent or empty.  Once started, every
    call sends its request to the fixed URL with the key read from the
    environment as the [key] query parameter, with the single header
    [Content-Type: application/json] and a timeout of 30; none of this
    depends on the message or on the history. *)
Theorem request_envelope (environ : gmap string string)
    (repr : json -> string) (text : exn -> string) :
  (forall (rt : Runtime) (requests_post : request -> net_result)
          (user_message : json) (w : world),
     boot environ repr text = inr rt ->
     exists key,
       environ !! "GEMINI_API_KEY" = Some key /\ key <> "" /\
       @GEMINI_API_KEY rt = key /\
       exists req,
         last (sent (@call_gemini_api rt requests_post user_message w).2) =
           Some req /\
         url req = GEMINI_API_URL +:+ "?key=" +:+ key /\
         headers req = {[ "Content-Type" := "application/json" ]} /\
         timeout req = 30) /\
  (environ !! "GEMINI_API_KEY" = None \/
   environ !! "GEMINI_API_KEY" = Some "" ->
   boot environ repr text =
     inl "GEMINI_API_KEY not found in environment variables!").
Proof.
  split.
  - intros rt requests_post user_message w Hboot. unfold boot in Hboot.
    destruct (startup environ) as [message|key] eqn:Hstart; [discriminate|].
    injection Hboot as <-. apply startup_key in Hstart as [Henv Hkey].
    exists key. split; [done|]. split; [done|]. split; [done|].
    rewrite call_gemini_api_eq. cbn [snd sent]. rewrite last_snoc.
    by eexists.
  - unfold boot, startup. by intros [-> | ->].
Qed.


(** ** The properties on sample inputs *)

(** C1 as stated fails: with a first candidate flagged [SAFETY] the
    answer of [POST /chat] does not have status 500. *)
Lemma safety_block_is_not_a_500 :
  ~ (forall (rt : Runtime) (requests_post : request -> net_result)
            (request_json user_message : json) (w : world) (r : response)
            (candidate : json),
       field "message" request_json = Some user_message ->
       Py.truthy user_message = true ->
       requests_post
         (the_request (conversation_history w ++ [turn "user" user_message])) =
         Responded r ->
       status_code r = 200 ->
       first_candidate r = Some candidate ->
       field "finishReason" candidate = Some (JString "SAFETY") ->
       exists answer : http_response,
         (chat requests_post request_json w).1 = Ok answer /\
         http_status answer = 500).
Proof.
  intros Hclaim.
  destruct (Hclaim sample_runtime (answering safety_response) hello
              (JString "Hello") start safety_response
              (JObject {[ "finishReason" := JString "SAFETY" ]}))
    as (answer & Hanswer & Hstatus); try reflexivity.
  vm_compute in Hanswer. injection Hanswer as <-. discriminate Hstatus.
Qed.

Lemma chat_safety_block_witness :
  (@chat sample_runtime (answering safety_response) hello start).1 =
    Ok (Http 200 {[ "response" := JString SAFETY_REFUSAL ]}) /\
  conversation_history
    (@chat sample_runtime (answering safety_response) hello start).2 =
    [turn "user" (JString "Hello")] /\
  length (conversation_history
    (@chat sample_runtime (answering safety_response) hello start).2) = 1%nat.
Proof.
  pose proof (@chat_safety_block sample_runtime (answering safety_response)
                hello (JString "Hello") start safety_response
                (JObject {[ "finishReason" := JString "SAFETY" ]})
                eq_refl eq_refl eq_refl eq_refl eq_refl eq_refl)
    as (Hanswer & Hhistory & Hlength & _).
  exact (conj Hanswer (conj Hhistory Hlength)).
Defined.

Lemma transcript_growth_witness :
  let calls :=
    [(answering (text_response "STOP" "Greetings."), JString "Hello");
     (answering (text_response "MAX_TOKENS" "Again."), JString "More")] in
  conversation_history (@run_calls sample_runtime calls start).2 =
    [turn "user" (JString "Hello"); turn "model" (JString "Greetings.");
     turn "user" (JString "More"); turn "model" (JString "Again.")] /\
  length (conversation_history (@run_calls sample_runtime calls start).2) =
    4%nat.
Proof.
  intros calls.
  apply (@transcript_growth sample_runtime calls
           [JString "Greetings."; JString "Again."] start);
    [reflexivity | vm_compute; reflexivity].
Defined.

Lemma failed_call_keeps_user_turn_witness :
  let timed_out := fun _ : request => Failed (RequestException "timed out") in
  (exists e,
     (@call_gemini_api sample_runtime timed_out (JString "Hello") start).1 =
       Raise e) /\
  conversation_history
    (@call_gemini_api sample_runtime timed_out (JString "Hello") start).2 =
    [turn "user" (JString "Hello")] /\
  length (conversation_history
    (@call_gemini_api sample_runtime timed_out (JString "Hello") start).2) =
    1%nat.
Proof.
  intros timed_out.
  apply (@failed_call_keeps_user_turn sample_runtime timed_out
           (JString "Hello") start).
  left. exists (RequestException "timed out"). reflexivity.
Defined.

Lemma blocked_or_empty_witness :
  conversation_history
    (@call_gemini_api sample_runtime (answering no_candidates_response)
       (JString "Hello") start).2 =
    [turn "user" (JString "Hello")] /\
  length (conversation_history
    (@call_gemini_api sample_runtime (answering no_candidates_response)
       (JString "Hello") start).2) = 1%nat.
Proof.
  apply (@blocked_or_empty_appends_user_turn_only sample_runtime
           (answering no_candidates_response) (JString "Hello") start
           NO_PROPER_RESPONSE).
  right. vm_compute. reflexivity.
Defined.

Lemma upstream_error_message_witness :
  @chat sample_runtime (answering quota_response) hello start =
    (Ok (Http 500 {[ "error" := JString "Quota exceeded" ]}),
     {| conversation_history := [turn "user" (JString "Hello")];
        sent := [@the_request sample_runtime [turn "user" (JString "Hello")]] |}).
Proof.
  apply (@upstream_error_message sample_runtime (answering quota_response)
           hello (JString "Hello") start quota_response);
    [reflexivity | reflexivity | reflexivity | vm_compute; discriminate].
Defined.


Lemma other_finish_reason_witness :
  (@call_gemini_api sample_runtime
     (answering (text_response "MAX_TOKENS" "Greetings."))
     (JString "Hello") start).1 = Ok (Reply (JString "Greetings.")) /\
  conversation_history
    (@call_gemini_api sample_runtime
       (answering (text_response "MAX_TOKENS" "Greetings."))
       (JString "Hello") start).2 =
    [turn "user" (JString "Hello"); turn "model" (JString "Greetings.")].
Proof.
  apply (@other_finish_reason_is_reply sample_runtime
           (answering (text_response "MAX_TOKENS" "Greetings."))
           (JString "Hello") start
           (text_response "MAX_TOKENS" "Greetings.")
           (JObject {[
              "finishReason" := JString "MAX_TOKENS";
              "content" := JObject {[ "parts" :=
                JArray [JObject {[ "text" := JString "Greetings." ]}] ]} ]})
           (JString "MAX_TOKENS") (JString "Greetings."));
    [reflexivity | reflexivity | reflexivity | reflexivity
    | discriminate | reflexivity].
Defined.

(** ** The further properties on sample inputs *)

Lemma chat_body_not_a_dict_witness :
  (@chat sample_runtime (answering quota_response) (JArray []) start).1 =
    Raise AttributeError /\
  (@chat sample_runtime (answering quota_response) (JArray []) start).2 =
    start.
Proof.
  apply (@chat_body_not_a_dict sample_runtime (answering quota_response)
           (JArray []) start).
  intros d. discriminate.
Defined.

Lemma falsy_message_rejected_witness :
  @chat sample_runtime (answering quota_response)
    (JObject {[ "message" := JInt 0 ]}) start =
    (Ok (Http 400 {[ "error" := JString "No message provided" ]}), start).
Proof.
  apply (@falsy_message_rejected sample_runtime (answering quota_response)
           {[ "message" := JInt 0 ]} (JInt 0) start).
  - reflexivity.
  - apply list_elem_of_further, list_elem_of_further, list_elem_of_here.
Defined.

Lemma parts_list_decides_witness :
  (@call_gemini_api sample_runtime (answering textless_response)
     (JString "Hello") start).1 = Raise (KeyError (JString "text")) /\
  conversation_history
    (@call_gemini_api sample_runtime (answering textless_response)
       (JString "Hello") start).2 = [turn "user" (JString "Hello")].
Proof.
  assert (({[ "content" := JObject {[ "parts" :=
              JArray [JObject {[ "role" := JString "model" ]}] ]} ]}
             : gmap string json) !! "finishReason" <>
          Some (JString "SAFETY")) as Hf by (vm_compute; discriminate).
  exact (@parts_list_decides sample_runtime (answering textless_response)
           (JString "Hello") start textless_response _ _
           [JObject {[ "role" := JString "model" ]}]
           eq_refl eq_refl eq_refl Hf eq_refl eq_refl).
Defined.

Lemma body_not_an_object_witness :
  let not_json := answering (Response 200 None) in
  (@call_gemini_api sample_runtime not_json (JString "Hello") start).1 =
    Raise JSONDecodeError /\
  conversation_history
    (@call_gemini_api sample_runtime not_json (JString "Hello") start).2 =
    [turn "user" (JString "Hello")].
Proof.
  intros not_json.
  assert (forall d, decoded (Response 200 None) <> Some (JObject d)) as Hd
    by (intros d; discriminate).
  pose proof (@body_not_an_object sample_runtime not_json (JString "Hello")
                start (Response 200 None) eq_refl eq_refl Hd)
    as (_ & Hdecode & Hhistory).
  split; [by apply Hdecode | exact Hhistory].
Defined.

Lemma unanswered_turn_is_sent_again_witness :
  let timed_out := fun _ : request => Failed (RequestException "timed out") in
  exists req,
    last (sent (@call_gemini_api sample_runtime
                  (answering (text_response "STOP" "Greetings."))
                  (JString "Hello again")
                  (@call_gemini_api sample_runtime timed_out
                     (JString "Hello") start).2).2) = Some req /\
    field "contents" (json_body req) =
      Some (JArray [turn "user" (JString "Hello");
                    turn "user" (JString "Hello again")]).
Proof.
  intros timed_out.
  apply (@unanswered_turn_is_sent_again sample_runtime timed_out
           (answering (text_response "STOP" "Greetings."))
           (JString "Hello") (JString "Hello again") start).
  intros text. vm_compute. discriminate.
Defined.

Lemma request_envelope_witness :
  exists key,
    ({[ "GEMINI_API_KEY" := "test-key" ]} : gmap string string)
      !! "GEMINI_API_KEY" = Some key /\ key <> "" /\
    @GEMINI_API_KEY sample_runtime = key /\
    exists req,
      last (sent (@call_gemini_api sample_runtime (answering quota_response)
                    (JString "Hello") start).2) = Some req /\
      url req = GEMINI_API_URL +:+ "?key=" +:+ key /\
      headers req = {[ "Content-Type" := "application/json" ]} /\
      timeout req = 30.
Proof.
  apply (proj1 (request_envelope {[ "GEMINI_API_KEY" := "test-key" ]}
                  (@py_repr sample_runtime) (@exn_text sample_runtime))
           sample_runtime (answering quota_response) (JString "Hello") start).
  reflexivity.
Defined.

Lemma candidates_not_a_list_witness :
  let odd := Response 200 (Some (JObject {[ "candidates" := JString "abc" ]})) in
  (@call_gemini_api sample_runtime (answering odd) (JString "Hello") start).1 =
    Ok (Empty NO_PROPER_RESPONSE).
Proof.
  intros odd.
  assert (forall l, JString "abc" <> JArray l) as Hl
    by (intros l; discriminate).
  exact (@candidates_not_a_list sample_runtime (answering odd)
           (JString "Hello") start odd
           {[ "candidates" := JString "abc" ]} (JString "abc")
           eq_refl eq_refl eq_refl eq_refl Hl).
Defined.

Lemma fallback_on_missing_content_witness :
  (@call_gemini_api sample_runtime (answering no_candidates_response)
     (JString "Hello") start).1 = Ok (Empty NO_PROPER_RESPONSE) /\
  (@chat sample_runtime (answering no_candidates_response) hello start).1 =
    Ok (Http 200 {[ "response" := JString NO_PROPER_RESPONSE ]}) /\
  conversation_history
    (@chat sample_runtime (answering no_candidates_response) hello start).2 =
    [turn "user" (JString "Hello")].
Proof.
  apply (@fallback_on_missing_content sample_runtime
           (answering no_candidates_response) hello (JString "Hello") start
           no_candidates_response {[ "candidates" := JArray [] ]});
    try reflexivity.
  right. left. reflexivity.
Defined.

Lemma transport_failure_reported_witness :
  let timed_out := fun _ : request => Failed (RequestException "timed out") in
  @chat sample_runtime timed_out hello start =
    (Ok (Http 500 {[ "error" := JString "timed out" ]}),
     {| conversation_history := [turn "user" (JString "Hello")];
        sent := [@the_request sample_runtime [turn "user" (JString "Hello")]] |}).
Proof.
  intros timed_out.
  apply (@transport_failure_reported sample_runtime timed_out hello
           (JString "Hello") start (RequestException "timed out"));
    reflexivity.
Defined.

